(** * accounts.views.base: the account and account-user views

    A shallow embedding of [accounts/views/base.py].  The views are
    methods on a per-request view instance that read and write its
    attributes ([self.object], [self.account], [self.user], ...), talk to
    the database through model and form objects and either return a
    response or raise.  They are embedded as computations in a state and
    exception monad over a world made of the database, the view instance
    and a log of the calls made on the collaborating objects.

    The collaborators that live in other modules of the project
    ([accounts.views.mixins], [accounts.forms], [accounts.models]) and
    the parts of the framework the views call are gathered in the class
    [Site]; every view is defined for an arbitrary [Site]. *)

From Stdlib Require Import String ZArith List Bool DecimalString.
From stdpp Require Import base option strings gmap list.

Local Open Scope string_scope.
Local Open Scope Z_scope.
Local Open Scope list_scope.

(** ** Python values *)

(** The values found in [form.cleaned_data] and in the text attributes of
    a user: [None] or a string. *)
Inductive pyval : Type :=
| PNone
| PStr (s : string).

Global Instance pyval_eq_dec : EqDecision pyval.
Proof. solve_decision. Defined.

(** Truth value of a Python object: [None] and the empty string are
    false, every other string is true. *)
Definition truthy (v : pyval) : bool :=
  match v with
  | PNone => false
  | PStr s => negb (String.eqb s "")
  end.

(** [a or b] where [b] is a string: [a] when it is true, else [b]. *)
Definition py_or (a : pyval) (b : string) : string :=
  match a with
  | PNone => b
  | PStr s => if truthy a then s else b
  end.

(** [s % {key: value}] for the [%(key)s] conversion: every occurrence of
    the pattern [pat] is replaced by [value].  [skip] counts the
    characters of a matched pattern that are still to be dropped. *)
Fixpoint replace_from (pat value : string) (skip : nat) (s : string) : string :=
  match s with
  | EmptyString => EmptyString
  | String c rest =>
      match skip with
      | S k => replace_from pat value k rest
      | O =>
          if String.prefix pat s
          then value +:+ replace_from pat value (Nat.pred (String.length pat)) rest
          else String c (replace_from pat value O rest)
      end
  end.

Definition str_mod (s key value : string) : string :=
  replace_from ("%(" +:+ key +:+ ")s") value O s.

(** ** Entities *)

Record Account : Type := mkAccount {
  account_pk : Z;
  account_name : string
}.

Record AccountUser : Type := mkAccountUser {
  accountuser_pk : Z;
  accountuser_account : Z;
  accountuser_user : Z
}.

(** The platform user record ([django.contrib.auth.models.User]). *)
Record User : Type := mkUser {
  pk : Z;
  username : pyval;
  first_name : pyval;
  last_name : pyval;
  email : pyval;
  password : string;
  is_staff : bool;
  is_active : bool;
  is_superuser : bool;
  last_login : Z;
  date_joined : Z
}.

Global Instance Account_eq_dec : EqDecision Account.
Proof. solve_decision. Defined.
Global Instance AccountUser_eq_dec : EqDecision AccountUser.
Proof. solve_decision. Defined.
Global Instance User_eq_dec : EqDecision User.
Proof. solve_decision. Defined.

(** Attribute assignment [user.attr = v]. *)
Definition set_username (v : pyval) (u : User) : User :=
  mkUser (pk u) v (first_name u) (last_name u) (email u) (password u)
         (is_staff u) (is_active u) (is_superuser u) (last_login u) (date_joined u).
Definition set_first_name (v : pyval) (u : User) : User :=
  mkUser (pk u) (username u) v (last_name u) (email u) (password u)
         (is_staff u) (is_active u) (is_superuser u) (last_login u) (date_joined u).
Definition set_last_name (v : pyval) (u : User) : User :=
  mkUser (pk u) (username u) (first_name u) v (email u) (password u)
         (is_staff u) (is_active u) (is_superuser u) (last_login u) (date_joined u).
Definition set_email (v : pyval) (u : User) : User :=
  mkUser (pk u) (username u) (first_name u) (last_name u) v (password u)
         (is_staff u) (is_active u) (is_superuser u) (last_login u) (date_joined u).
Definition set_password_field (h : string) (u : User) : User :=
  mkUser (pk u) (username u) (first_name u) (last_name u) (email u) h
         (is_staff u) (is_active u) (is_superuser u) (last_login u) (date_joined u).

(** What [self.object] can hold: the views store an account or an
    account-user there, and call methods on it without looking at which. *)
Inductive obj : Type :=
| ObjAccount (a : Account)
| ObjAccountUser (au : AccountUser).

(** The database: one table per entity, keyed by primary key. *)
Record DB : Type := mkDB {
  accounts : gmap Z Account;
  accountusers : gmap Z AccountUser;
  users : gmap Z User
}.

(** ** Forms, requests and responses *)

(** A form: the outcome of [is_valid()], the [cleaned_data] dictionary of
    a form bound to submitted data, and the [initial] values of a form
    made to be filled in. *)
Record Form : Type := mkForm {
  is_valid : bool;
  cleaned_data : gmap string pyval;
  initial : gmap string pyval
}.

Record Request : Type := mkRequest {
  META : gmap string string;
  request_user : User;
  request_form : Form
}.

(** Values put in a template context. *)
Inductive ctxval : Type :=
| CAccount (a : Account)
| CAccountUsers (l : list AccountUser)
| CObject (o : obj)
| CForm (f : Form)
| CBool (b : bool).

Inductive response : Type :=
| HttpResponseRedirect (redirect_to : string)
| TemplateResponse (template_name : option string) (context : gmap string ctxval).

Inductive exn : Type :=
| Http404 (msg : string)
| NameError (name : string)
| KeyError (key : string)
| AttributeError (attr : string)
| NoReverseMatch (viewname : string).

(** ** The world and the monad of view code *)

(** The attributes the views set on [self]; a fresh view instance has
    none of them. *)
Record View : Type := mkView {
  self_object : option obj;
  self_account : option Account;
  self_object_list : option (list AccountUser);
  self_user : option User;
  self_referrer : option pyval
}.

Definition fresh_view : View := mkView None None None None None.

(** Calls made on the collaborating objects, in order. *)
Inductive call : Type :=
| Call_AccountAddForm_save (f : Form)
| Call_AccountUserAddForm_save (f : Form) (account : obj)
| Call_set_password (user_pk : Z) (raw_password : pyval)
| Call_User_save (u : User)
| Call_delete (o : obj).

Record World : Type := mkWorld {
  db : DB;
  self : View;
  calls : list call
}.

Inductive result (A : Type) : Type :=
| Ok (a : A)
| Raise (e : exn).
Arguments Ok {A} a.
Arguments Raise {A} e.

Definition M (A : Type) : Type := World -> result A * World.

Definition ret {A} (a : A) : M A := fun w => (Ok a, w).
Definition raise {A} (e : exn) : M A := fun w => (Raise e, w).
Definition bind {A B} (c : M A) (k : A -> M B) : M B :=
  fun w => match c w with
           | (Ok a, w') => k a w'
           | (Raise e, w') => (Raise e, w')
           end.

Notation "'let*' x ':=' c 'in' k" := (bind c (fun x => k))
  (at level 10, x name, c at level 100, k at level 200).
Notation "c1 '>>' c2" := (bind c1 (fun _ => c2))
  (at level 100, c2 at level 200, right associativity).

Definition lift {A} (r : result A) : M A := fun w => (r, w).
Definition get_db : M DB := fun w => (Ok (db w), w).
Definition put_db (d : DB) : M unit := fun w => (Ok tt, mkWorld d (self w) (calls w)).
Definition get_self : M View := fun w => (Ok (self w), w).
Definition put_self (v : View) : M unit := fun w => (Ok tt, mkWorld (db w) v (calls w)).
Definition record (c : call) : M unit :=
  fun w => (Ok tt, mkWorld (db w) (self w) (calls w ++ [c])).

(** Reading an attribute of [self] that was never set raises. *)
Definition attr {A} (name : string) (proj : View -> option A) : M A :=
  let* v := get_self in
  match proj v with
  | Some a => ret a
  | None => raise (AttributeError name)
  end.

Definition set_self_object (o : obj) : M unit :=
  let* v := get_self in
  put_self (mkView (Some o) (self_account v) (self_object_list v) (self_user v) (self_referrer v)).
Definition set_self_account (a : Account) : M unit :=
  let* v := get_self in
  put_self (mkView (self_object v) (Some a) (self_object_list v) (self_user v) (self_referrer v)).
Definition set_self_object_list (l : list AccountUser) : M unit :=
  let* v := get_self in
  put_self (mkView (self_object v) (self_account v) (Some l) (self_user v) (self_referrer v)).
Definition set_self_user (u : User) : M unit :=
  let* v := get_self in
  put_self (mkView (self_object v) (self_account v) (self_object_list v) (Some u) (self_referrer v)).
Definition set_self_referrer (r : pyval) : M unit :=
  let* v := get_self in
  put_self (mkView (self_object v) (self_account v) (self_object_list v) (self_user v) (Some r)).

(** [d[key]] on a dictionary. *)
Definition getitem (d : gmap string pyval) (key : string) : M pyval :=
  match d !! key with
  | Some v => ret v
  | None => raise (KeyError key)
  end.

(** ** Collaborators *)

(** What the views use from the rest of the project and from the
    framework.  The mixins resolve the object a route designates (and
    raise [Http404] when there is none); the models give the users of an
    account, the absolute URL of an object and its deletion; the forms
    save what was submitted. *)
Class Site : Type := {
  (* accounts.views.mixins.AccountSingleObjectMixin *)
  get_account : gmap string string -> DB -> result Account;
  account_get_object : gmap string string -> DB -> result Account;
  (* accounts.views.mixins.AccountUserSingleObjectMixin *)
  accountuser_get_object : gmap string string -> DB -> result AccountUser;
  (* the get_context_data the view inherits *)
  super_get_context_data : gmap string ctxval -> gmap string ctxval;
  (* accounts.models *)
  users_all : Account -> DB -> list AccountUser;
  account_get_absolute_url : Account -> string;
  accountuser_get_absolute_url : AccountUser -> string;
  account_delete : Account -> DB -> DB;
  accountuser_delete : AccountUser -> DB -> DB;
  (* accounts.forms *)
  AccountAddForm_save : Form -> DB -> DB * Account;
  AccountUserAddForm_save : Form -> obj -> DB -> DB * AccountUser;
  (* django.core.urlresolvers.reverse(viewname), None for NoReverseMatch *)
  reverse : string -> option string;
  (* the hash stored by User.set_password *)
  make_password : pyval -> string;
  (* ListView.allow_empty and the name of the concrete view class *)
  allow_empty : bool;
  class_name : string;
  (* the binding of the name _ in the builtins, when something installed one *)
  builtins_underscore : option (string -> string)
}.

(** The names bound at the top level of [accounts/views/base.py]: those
    of its import statements (lines 1 to 14) and of its class
    statements. *)
Definition module_globals : list string :=
  [ "reverse"; "Http404"; "HttpResponseRedirect";
    "ListView"; "DetailView"; "UpdateView"; "DeleteView"; "FormView";
    "login_required"; "method_decorator"; "get_object_or_404";
    "Account"; "AccountUser";
    "AccountAuthMixin"; "AccountSingleObjectMixin";
    "AccountUserSingleObjectMixin"; "AccountsUpdateMixin";
    "AccountUserForm"; "AccountUserAddForm"; "AccountAddForm"; "ProfileUserForm";
    "BaseAccountList"; "BaseAccountDetail"; "BaseAccountCreate";
    "BaseAccountUpdate"; "BaseAccountDelete"; "BaseAccountUserList";
    "BaseAccountUserDetail"; "BaseAccountUserCreate"; "BaseAccountUserUpdate";
    "BaseAccountUserDelete"; "UserProfileView" ].

(** Evaluation of the name [_] inside a method of this module: it is not
    a local and it is not among [module_globals], so what is left is the
    builtins, and [NameError] when they do not bind it either. *)
Definition name_underscore `{Site} : M (string -> string) :=
  match builtins_underscore with
  | Some f => ret f
  | None => raise (NameError "_")
  end.

(** [obj.get_absolute_url()], on whatever [obj] is. *)
Definition get_absolute_url `{Site} (o : obj) : string :=
  match o with
  | ObjAccount a => account_get_absolute_url a
  | ObjAccountUser au => accountuser_get_absolute_url au
  end.

(** [obj.delete()]. *)
Definition delete_object `{Site} (o : obj) : M unit :=
  let* d := get_db in
  record (Call_delete o) >>
  match o with
  | ObjAccount a => put_db (account_delete a d)
  | ObjAccountUser au => put_db (accountuser_delete au d)
  end.

(** [reverse(viewname)]. *)
Definition call_reverse `{Site} (viewname : string) : M string :=
  match reverse viewname with
  | Some url => ret url
  | None => raise (NoReverseMatch viewname)
  end.

(** ** Framework methods the views inherit *)

Definition render_to_response (template_name : option string)
    (context : gmap string ctxval) : M response :=
  ret (TemplateResponse template_name context).

(** [FormMixin.form_valid]: redirect to [self.get_success_url()]. *)
Definition FormMixin_form_valid (get_success_url : M string) : M response :=
  let* url := get_success_url in
  ret (HttpResponseRedirect url).

(** [FormMixin.form_invalid]: render the form again. *)
Definition FormMixin_form_invalid (template_name : option string)
    (get_context_data : gmap string ctxval -> gmap string ctxval)
    (form : Form) : M response :=
  render_to_response template_name (get_context_data {[ "form" := CForm form ]}).

(** [ProcessFormView.post]: build the form and dispatch on its validity. *)
Definition ProcessFormView_post (form_valid form_invalid : Form -> M response)
    (request : Request) : M response :=
  let form := request_form request in
  if is_valid form then form_valid form else form_invalid form.

(** [DeletionMixin.delete]: fetch the object, delete it, redirect. *)
Definition DeletionMixin_delete `{Site} (get_object : M obj) (get_success_url : M string)
    : M response :=
  let* o := get_object in
  set_self_object o >>
  delete_object o >>
  let* url := get_success_url in
  ret (HttpResponseRedirect url).

(** ** The views *)

Module BaseAccountDetail.
Definition get_context_data `{Site} (kwargs : gmap string ctxval)
    : M (gmap string ctxval) :=
  let context := super_get_context_data kwargs in
  let* o := attr "object" self_object in
  let* d := get_db in
  let* accountusers :=
    match o with
    | ObjAccount a => ret (users_all a d)
    | ObjAccountUser _ => raise (AttributeError "users")
    end in
  let context := <[ "accountusers" := CAccountUsers accountusers ]> context in
  let* o := attr "object" self_object in
  ret (<[ "account" := CObject o ]> context).
End BaseAccountDetail.

Module BaseAccountCreate.
Definition template_name : string := "accounts/account_form.html".

Definition get_success_url `{Site} : M string :=
  let* o := attr "object" self_object in
  ret (get_absolute_url o).

(** [form.save()] *)
Definition form_save `{Site} (form : Form) : M obj :=
  let* d := get_db in
  record (Call_AccountAddForm_save form) >>
  put_db (fst (AccountAddForm_save form d)) >>
  ret (ObjAccount (snd (AccountAddForm_save form d))).

Definition form_valid `{Site} (form : Form) : M response :=
  let* o := form_save form in
  set_self_object o >>
  FormMixin_form_valid get_success_url.

Definition post `{Site} (request : Request) : M response :=
  ProcessFormView_post form_valid
    (FormMixin_form_invalid (Some template_name) super_get_context_data) request.
End BaseAccountCreate.

Module BaseAccountDelete.
Definition get_success_url `{Site} : M string :=
  call_reverse "account_list".

Definition get_object `{Site} (kwargs : gmap string string) : M obj :=
  let* d := get_db in
  let* a := lift (account_get_object kwargs d) in
  ret (ObjAccount a).

Definition delete `{Site} (kwargs : gmap string string) : M response :=
  DeletionMixin_delete (get_object kwargs) get_success_url.
End BaseAccountDelete.

Module BaseAccountUserList.
Definition get `{Site} (kwargs : gmap string string) : M response :=
  let* d := get_db in
  let* account := lift (get_account kwargs d) in
  set_self_account account >>
  set_self_object_list (users_all account d) >>
  let* object_list := attr "object_list" self_object_list in
  if negb allow_empty && (length object_list =? 0)%nat
  then
    let* underscore := name_underscore in
    raise (Http404 (str_mod
      (underscore "Empty list and '%(class_name)s.allow_empty' is False.")
      "class_name" class_name))
  else
    let* account := attr "account" self_account in
    render_to_response None
      (super_get_context_data
         (<[ "accountusers" := CAccountUsers object_list ]>
            {[ "account" := CAccount account ]})).
End BaseAccountUserList.

Module BaseAccountUserCreate.
Definition template_name : string := "accounts/accountuser_form.html".

Definition get_success_url `{Site} : M string :=
  let* o := attr "object" self_object in
  ret (get_absolute_url o).

(** [form.save(account)]; what it returns is the account-user it made. *)
Definition form_save `{Site} (form : Form) (account : obj) : M AccountUser :=
  let* d := get_db in
  record (Call_AccountUserAddForm_save form account) >>
  put_db (fst (AccountUserAddForm_save form account d)) >>
  ret (snd (AccountUserAddForm_save form account d)).

Definition form_valid `{Site} (form : Form) : M response :=
  let* o := attr "object" self_object in
  form_save form o >>
  FormMixin_form_valid get_success_url.

Definition get_object `{Site} (kwargs : gmap string string) : M obj :=
  let* d := get_db in
  let* a := lift (account_get_object kwargs d) in
  ret (ObjAccount a).

Definition form_invalid `{Site} (form : Form) : M response :=
  FormMixin_form_invalid (Some template_name) super_get_context_data form.

Definition get `{Site} (request : Request) (kwargs : gmap string string)
    : M response :=
  let* o := get_object kwargs in
  set_self_object o >>
  let form := request_form request in
  let* account := attr "object" self_object in
  render_to_response (Some template_name)
    (super_get_context_data
       (<[ "form" := CForm form ]>
          {[ "account" := CObject account ]})).

Definition post `{Site} (request : Request) (kwargs : gmap string string)
    : M response :=
  let* o := get_object kwargs in
  set_self_object o >>
  let form := request_form request in
  if is_valid form
  then form_valid form
  else form_invalid form.
End BaseAccountUserCreate.

Module BaseAccountUserDelete.
Definition get_success_url `{Site} : M string :=
  call_reverse "accountuser_list".

Definition get_object `{Site} (kwargs : gmap string string) : M obj :=
  let* d := get_db in
  let* au := lift (accountuser_get_object kwargs d) in
  ret (ObjAccountUser au).

Definition delete `{Site} (kwargs : gmap string string) : M response :=
  DeletionMixin_delete (get_object kwargs) get_success_url.
End BaseAccountUserDelete.

Module UserProfileView.
Definition template_name : string := "accounts/accountuser_form.html".
Definition success_url : string := "/".

Definition success_redirect (referrer : pyval) : response :=
  HttpResponseRedirect (py_or referrer success_url).

Definition get_context_data `{Site} (kwargs : gmap string ctxval)
    : gmap string ctxval :=
  <[ "profile" := CBool true ]> (super_get_context_data kwargs).

(** [self.user.attr = v]: the object [self.user] refers to is changed in
    place. *)
Definition setattr_user (assign : User -> User) : M unit :=
  let* u := attr "user" self_user in
  set_self_user (assign u).

(** [self.user.set_password(raw)]: only the password attribute is
    assigned, nothing is saved. *)
Definition set_password `{Site} (raw : pyval) : M unit :=
  let* u := attr "user" self_user in
  record (Call_set_password (pk u) raw) >>
  set_self_user (set_password_field (make_password raw) u).

(** [self.user.save()]: the row of the user's primary key takes the
    values the object has now. *)
Definition save : M unit :=
  let* u := attr "user" self_user in
  let* d := get_db in
  record (Call_User_save u) >>
  put_db (mkDB (accounts d) (accountusers d) (<[ pk u := u ]> (users d))).

Definition form_valid `{Site} (form : Form) : M response :=
  let* v := getitem (cleaned_data form) "username" in
  setattr_user (set_username v) >>
  let* v := getitem (cleaned_data form) "first_name" in
  setattr_user (set_first_name v) >>
  let* v := getitem (cleaned_data form) "last_name" in
  setattr_user (set_last_name v) >>
  let* v := getitem (cleaned_data form) "email" in
  setattr_user (set_email v) >>
  let* p := getitem (cleaned_data form) "password1" in
  (if truthy p
   then let* raw := getitem (cleaned_data form) "password1" in set_password raw
   else ret tt) >>
  save >>
  let* referrer := getitem (cleaned_data form) "referrer" in
  ret (success_redirect referrer).

Definition form_invalid `{Site} (form : Form) : M response :=
  FormMixin_form_invalid (Some template_name) get_context_data form.

(** [request.META.get('HTTP_REFERER')] *)
Definition http_referer (request : Request) : pyval :=
  match META request !! "HTTP_REFERER" with
  | Some s => PStr s
  | None => PNone
  end.

Definition get `{Site} (request : Request) : M response :=
  set_self_referrer (http_referer request) >>
  set_self_user (request_user request) >>
  let* u := attr "user" self_user in
  let* referrer := attr "referrer" self_referrer in
  let form :=
    mkForm false ∅
      (<[ "username" := username u ]>
      (<[ "first_name" := first_name u ]>
      (<[ "last_name" := last_name u ]>
      (<[ "email" := email u ]>
      (<[ "referrer" := referrer ]> ∅))))) in
  render_to_response (Some template_name) (get_context_data {[ "form" := CForm form ]}).

Definition post `{Site} (request : Request) : M response :=
  set_self_user (request_user request) >>
  ProcessFormView_post form_valid form_invalid request.
End UserProfileView.

(** Running a view method on a request: a new view instance, no call made
    yet. *)
Definition dispatch {A} (d : DB) (c : M A) : result A * World :=
  c (mkWorld d fresh_view []).

(** ** A site to run the views on *)

Module Demo.

Definition str_of_Z (z : Z) : string := NilZero.string_of_int (Z.to_int z).
Definition Z_of_str (s : string) : option Z :=
  Z.of_int <$> NilZero.int_of_string s.

Definition table {A} (m : gmap Z A) : list A := snd <$> map_to_list m.

(** The smallest primary key above those in use. *)
Definition next_pk {A} (m : gmap Z A) : Z :=
  1 + foldr Z.max 0 (fst <$> map_to_list m).

(** The row of table [m] whose primary key the route gives under
    [key]. *)
Definition by_route {A} (kwargs : gmap string string) (key : string)
    (m : gmap Z A) : option A :=
  match kwargs !! key with
  | Some s =>
      match Z_of_str s with
      | Some k => m !! k
      | None => None
      end
  | None => None
  end.

(** Modelled from the spec: the mixin of [accounts.views.mixins] that
    "resolves the account by identifier" and answers "not found" when
    there is none; the identifier is the [account_pk] of the route. *)
Definition get_account (kwargs : gmap string string) (d : DB) : result Account :=
  match by_route kwargs "account_pk" (accounts d) with
  | Some a => Ok a
  | None => Raise (Http404 "No Account matches the given query.")
  end.

(** Modelled from the spec: the account-user mixin, "scoped by
    account": the account-user of the route, under the account of the
    route. *)
Definition accountuser_get_object (kwargs : gmap string string) (d : DB)
    : result AccountUser :=
  match get_account kwargs d with
  | Raise e => Raise e
  | Ok a =>
      match by_route kwargs "accountuser_pk" (accountusers d) with
      | Some au =>
          if bool_decide (accountuser_account au = account_pk a)
          then Ok au
          else Raise (Http404 "No AccountUser matches the given query.")
      | None => Raise (Http404 "No AccountUser matches the given query.")
      end
  end.

(** Modelled from the spec: an account "has a collection of users", the
    account-users that belong to it. *)
Definition users_all (a : Account) (d : DB) : list AccountUser :=
  filter (fun au => accountuser_account au = account_pk a) (table (accountusers d)).

(** Modelled from the spec: the detail pages of [accounts.models], one
    per account and, under its account, one per account-user. *)
Definition account_get_absolute_url (a : Account) : string :=
  "/accounts/" +:+ str_of_Z (account_pk a) +:+ "/".
Definition accountuser_get_absolute_url (au : AccountUser) : string :=
  "/accounts/" +:+ str_of_Z (accountuser_account au) +:+ "/people/"
    +:+ str_of_Z (accountuser_pk au) +:+ "/".

(** Modelled from the spec: "remove the account", and with it the
    account-users that belong to it; removing an account-user removes
    that association only. *)
Definition account_delete (a : Account) (d : DB) : DB :=
  mkDB (delete (account_pk a) (accounts d))
       (filter (fun kv => accountuser_account (snd kv) ≠ account_pk a) (accountusers d))
       (users d).
Definition accountuser_delete (au : AccountUser) (d : DB) : DB :=
  mkDB (accounts d) (delete (accountuser_pk au) (accountusers d)) (users d).

Definition text (v : option pyval) : string :=
  match v with
  | Some (PStr s) => s
  | _ => ""
  end.

(** Modelled from the spec: [accounts.forms.AccountAddForm.save],
    "persist a new account". *)
Definition AccountAddForm_save (form : Form) (d : DB) : DB * Account :=
  let a := mkAccount (next_pk (accounts d)) (text (cleaned_data form !! "name")) in
  (mkDB (<[ account_pk a := a ]> (accounts d)) (accountusers d) (users d), a).

Definition make_password (raw : pyval) : string :=
  match raw with
  | PStr s => "plain$" +:+ s
  | PNone => "!"
  end.

(** Modelled from the spec: [accounts.forms.AccountUserAddForm.save],
    "create a user record associated with that account": a user, then
    the account-user that ties it to the account it is given. *)
Definition AccountUserAddForm_save (form : Form) (account : obj) (d : DB)
    : DB * AccountUser :=
  let u := mkUser (next_pk (users d))
             (default PNone (cleaned_data form !! "username"))
             (default PNone (cleaned_data form !! "first_name"))
             (default PNone (cleaned_data form !! "last_name"))
             (default PNone (cleaned_data form !! "email"))
             (make_password (default PNone (cleaned_data form !! "password1")))
             false true false 0 0 in
  let au := mkAccountUser (next_pk (accountusers d))
              (match account with
               | ObjAccount a => account_pk a
               | ObjAccountUser x => accountuser_account x
               end)
              (pk u) in
  (mkDB (accounts d) (<[ accountuser_pk au := au ]> (accountusers d))
        (<[ pk u := u ]> (users d)), au).

(** The routes, as far as [reverse] without arguments goes. *)
Definition reverse (viewname : string) : option string :=
  if String.eqb viewname "account_list" then Some "/accounts/"
  else if String.eqb viewname "accountuser_list" then Some "/accounts/people/"
  else None.

Definition alice : User :=
  mkUser 1 (PStr "alice") (PStr "Alice") (PStr "Liddell") (PStr "alice@example.org")
         "plain$rabbit" true true false 20 10.

Definition acme : Account := mkAccount 1 "Acme".
Definition globex : Account := mkAccount 2 "Globex".

(** Acme has one user, Globex none. *)
Definition db0 : DB :=
  mkDB (<[ 1 := acme ]> (<[ 2 := globex ]> ∅))
       (<[ 1 := mkAccountUser 1 1 1 ]> ∅)
       (<[ 1 := alice ]> ∅).

Definition profile_form (password1 referrer : pyval) : Form :=
  mkForm true
    (<[ "username" := PStr "alice" ]>
    (<[ "first_name" := PStr "Alice" ]>
    (<[ "last_name" := PStr "Pleasance" ]>
    (<[ "email" := PStr "alice@example.com" ]>
    (<[ "password1" := password1 ]>
    (<[ "referrer" := referrer ]> ∅))))))
    ∅.

Definition adduser_form (valid : bool) : Form :=
  mkForm valid
    (<[ "username" := PStr "bob" ]>
    (<[ "first_name" := PStr "Bob" ]>
    (<[ "last_name" := PStr "Builder" ]>
    (<[ "email" := PStr "bob@example.org" ]>
    (<[ "password1" := PStr "hammer" ]> ∅)))))
    ∅.

Definition account_form : Form :=
  mkForm true (<[ "name" := PStr "Initech" ]> ∅) ∅.

Definition request (form : Form) : Request := mkRequest ∅ alice form.

Definition route (account_pk : string) : gmap string string :=
  {[ "account_pk" := account_pk ]}.
End Demo.

(** The site made of the definitions of [Demo], for a list view whose
    [allow_empty] is [allow_empty] and a process whose builtins bind [_]
    as [underscore] says. *)
Definition demo_site (allow_empty : bool) (underscore : option (string -> string))
    : Site :=
  {| get_account := Demo.get_account;
     account_get_object := Demo.get_account;
     accountuser_get_object := Demo.accountuser_get_object;
     super_get_context_data := fun kwargs => kwargs;
     users_all := Demo.users_all;
     account_get_absolute_url := Demo.account_get_absolute_url;
     accountuser_get_absolute_url := Demo.accountuser_get_absolute_url;
     account_delete := Demo.account_delete;
     accountuser_delete := Demo.accountuser_delete;
     AccountAddForm_save := Demo.AccountAddForm_save;
     AccountUserAddForm_save := Demo.AccountUserAddForm_save;
     reverse := Demo.reverse;
     make_password := Demo.make_password;
     allow_empty := allow_empty;
     class_name := "AccountUserList";
     builtins_underscore := underscore |}.

(** The user object after the assignments of [form_valid]. *)
Definition profile_assigned `{Site} (n f l e p : pyval) (u : User) : User :=
  let u4 := set_email e (set_last_name l (set_first_name f (set_username n u))) in
  if truthy p then set_password_field (make_password p) u4 else u4.

(** The redirect of a valid submission of the account-user creation
    form, as the claim C2 words it: the redirect goes to
    the detail page of the account-user that the form made. *)
Definition redirects_to_created_accountuser `{Site} (request : Request)
    (kwargs : gmap string string) (d : DB) : Prop :=
  forall a : Account,
    account_get_object kwargs d = Ok a ->
    is_valid (request_form request) = true ->
    fst (dispatch d (BaseAccountUserCreate.post request kwargs)) =
      Ok (HttpResponseRedirect
            (accountuser_get_absolute_url
               (snd (AccountUserAddForm_save (request_form request) (ObjAccount a) d)))).

(** The profile form as Alice sends it back when she changes nothing and
    types no password. *)
Definition demo_unchanged_profile_form : Form :=
  mkForm true
    (<[ "username" := PStr "alice" ]>
    (<[ "first_name" := PStr "Alice" ]>
    (<[ "last_name" := PStr "Liddell" ]>
    (<[ "email" := PStr "alice@example.org" ]>
    (<[ "password1" := PStr "" ]>
    (<[ "referrer" := PStr "/accounts/" ]> ∅))))))
    ∅.

(** A profile form that validated without an email field. *)
Definition demo_profile_form_without_email : Form :=
  mkForm true
    (<[ "username" := PStr "alice" ]>
    (<[ "first_name" := PStr "Alice" ]>
    (<[ "last_name" := PStr "Liddell" ]>
    (<[ "password1" := PStr "looking-glass" ]>
    (<[ "referrer" := PStr "/accounts/" ]> ∅)))))
    ∅.

(** A view instance whose [self.object] is the account [a]. *)
Definition view_of_account (a : Account) : View :=
  mkView (Some (ObjAccount a)) None None None None.

(** * Properties *)

(** ** The monad *)

Lemma bind_ok {A B} (c : M A) (k : A -> M B) (w w' : World) (a : A) :
  c w = (Ok a, w') -> bind c k w = k a w'.
Proof. intros Hc. unfold bind. now rewrite Hc. Qed.

Lemma bind_raise {A B} (c : M A) (k : A -> M B) (w w' : World) (e : exn) :
  c w = (Raise e, w') -> bind c k w = (Raise e, w').
Proof. intros Hc. unfold bind. now rewrite Hc. Qed.

Lemma bind_ret {A B} (a : A) (k : A -> M B) (w : World) :
  bind (ret a) k w = k a w.
Proof. reflexivity. Qed.

Lemma bind_assoc {A B C} (c : M A) (k : A -> M B) (h : B -> M C) (w : World) :
  bind (bind c k) h w = bind c (fun a => bind (k a) h) w.
Proof. unfold bind. destruct (c w) as [[a | e] w']; reflexivity. Qed.

(** Unfolding of the view code down to the operations of the monad. *)
Ltac unfold_views :=
  unfold BaseAccountCreate.post, BaseAccountCreate.form_valid,
    BaseAccountCreate.form_save, BaseAccountCreate.get_success_url,
    BaseAccountDelete.delete, BaseAccountDelete.get_object,
    BaseAccountDelete.get_success_url,
    BaseAccountUserList.get,
    BaseAccountUserCreate.post, BaseAccountUserCreate.form_valid,
    BaseAccountUserCreate.form_invalid, BaseAccountUserCreate.form_save,
    BaseAccountUserCreate.get_object, BaseAccountUserCreate.get_success_url,
    BaseAccountUserDelete.delete, BaseAccountUserDelete.get_object,
    BaseAccountUserDelete.get_success_url,
    UserProfileView.post, UserProfileView.form_valid,
    UserProfileView.form_invalid, UserProfileView.set_password,
    UserProfileView.save, UserProfileView.setattr_user,
    UserProfileView.success_redirect,
    ProcessFormView_post, FormMixin_form_valid, FormMixin_form_invalid,
    DeletionMixin_delete, render_to_response, delete_object, call_reverse,
    name_underscore, getitem, attr,
    set_self_object, set_self_account, set_self_object_list, set_self_user,
    set_self_referrer, dispatch in *.

Ltac unfold_monad :=
  unfold bind, ret, raise, lift, get_db, put_db, get_self, put_self, record in *.

(** ** Values *)

Lemma truthy_spec (v : pyval) :
  truthy v = true <-> exists s, v = PStr s /\ s <> "".
Proof.
  destruct v as [| s]; cbn.
  - split; [discriminate | intros (s & Hs & _); discriminate].
  - destruct (String.eqb_spec s ""); cbn; split.
    + discriminate.
    + intros (s' & Hs & Hne). now inversion Hs; subst.
    + intros _. now exists s.
    + reflexivity.
Qed.

Lemma truthy_nonempty (s : string) : s <> "" -> truthy (PStr s) = true.
Proof. intros Hs. apply truthy_spec. now exists s. Qed.

Lemma truthy_empty (v : pyval) : v = PStr "" \/ v = PNone -> truthy v = false.
Proof. intros [-> | ->]; reflexivity. Qed.

Lemma py_or_truthy (s b : string) : s <> "" -> py_or (PStr s) b = s.
Proof.
  intros Hs. unfold py_or, truthy.
  destruct (String.eqb_spec s ""); [contradiction | reflexivity].
Qed.

Lemma py_or_empty (b : string) : py_or (PStr "") b = b.
Proof. reflexivity. Qed.

Lemma py_or_None (b : string) : py_or PNone b = b.
Proof. reflexivity. Qed.

(** The module binds no name [_]. *)
Lemma underscore_not_global : "_" ∉ module_globals.
Proof. apply (bool_decide_unpack _). vm_compute. exact I. Qed.

(** ** The list of the users of an account *)


(** With a list that has elements, or with empty lists allowed, [get]
    renders the list and the account. *)
Lemma BaseAccountUserList_get_renders `{Site} (kwargs : gmap string string)
    (w : World) (a : Account) :
  get_account kwargs (db w) = Ok a ->
  users_all a (db w) <> [] \/ allow_empty = true ->
  fst (BaseAccountUserList.get kwargs w) =
    Ok (TemplateResponse None
          (super_get_context_data
             (<[ "accountusers" := CAccountUsers (users_all a (db w)) ]>
                {[ "account" := CAccount a ]}))).
Proof.
  intros Ha Hor. unfold_views. unfold_monad.
  rewrite Ha. cbn.
  destruct Hor as [Hne | Hallow].
  - destruct (users_all a (db w)) as [| au l]; [contradiction |].
    cbn. rewrite andb_false_r. reflexivity.
  - rewrite Hallow. reflexivity.
Qed.

(** C1.  The account-user list of an account without users, in a list
    view that does not allow empty lists: the claim is that the view
    answers "not found".  On Globex, which has no user, [get] reaches the
    [raise Http404(_(...) % ...)] statement; the name [_] is bound
    neither by the module nor by the builtins, so evaluating the argument
    raises [NameError] and no [Http404] is ever built. *)
Theorem account_user_list_empty_raises_NameError :
  Demo.users_all Demo.globex Demo.db0 = [] /\
  fst (dispatch Demo.db0
         (@BaseAccountUserList.get (demo_site false None) (Demo.route "2")))
    = Raise (NameError "_").
Proof. split; vm_compute; reflexivity. Qed.

(** ** Creating an account-user *)

(** The whole outcome of a valid submission: the form is saved with the
    object of the route, and the redirect goes to the URL of what
    [self.object] holds, which is that same object. *)
Lemma BaseAccountUserCreate_post_valid `{Site} (request : Request)
    (kwargs : gmap string string) (w : World) (a : Account) :
  account_get_object kwargs (db w) = Ok a ->
  is_valid (request_form request) = true ->
  BaseAccountUserCreate.post request kwargs w =
    (Ok (HttpResponseRedirect (account_get_absolute_url a)),
     mkWorld
       (fst (AccountUserAddForm_save (request_form request) (ObjAccount a) (db w)))
       (mkView (Some (ObjAccount a)) (self_account (self w))
               (self_object_list (self w)) (self_user (self w))
               (self_referrer (self w)))
       (calls w ++
          [Call_AccountUserAddForm_save (request_form request) (ObjAccount a)])).
Proof.
  intros Ha Hvalid. unfold_views. unfold_monad.
  rewrite Ha. cbn. rewrite Hvalid. reflexivity.
Qed.

(** C2, as worded, fails: adding Bob to Acme makes the account-user 2 of
    account 1, whose page is /accounts/1/people/2/, and the redirect goes
    to /accounts/1/, the page of Acme. *)
Lemma accountuser_create_redirect_is_not_accountuser_page :
  ~ @redirects_to_created_accountuser (demo_site true None)
      (Demo.request (Demo.adduser_form true)) (Demo.route "1") Demo.db0.
Proof.
  intros Hclaim.
  specialize (Hclaim Demo.acme eq_refl eq_refl).
  vm_compute in Hclaim. discriminate Hclaim.
Qed.

(** C2, amended.  A valid submission of the account-user creation form
    is answered by a redirect to the absolute URL of the account resolved
    from the route ("return the user to the account page"). *)
Theorem accountuser_create_redirects_to_account `{Site} (request : Request)
    (kwargs : gmap string string) (w : World) (a : Account) :
  account_get_object kwargs (db w) = Ok a ->
  is_valid (request_form request) = true ->
  fst (BaseAccountUserCreate.post request kwargs w) =
    Ok (HttpResponseRedirect (account_get_absolute_url a)).
Proof.
  intros Ha Hvalid.
  now rewrite (BaseAccountUserCreate_post_valid request kwargs w a Ha Hvalid).
Qed.

Lemma accountuser_create_redirects_to_account_witness :
  fst (@BaseAccountUserCreate.post (demo_site true None)
         (Demo.request (Demo.adduser_form true)) (Demo.route "1")
         (mkWorld Demo.db0 fresh_view []))
    = Ok (HttpResponseRedirect "/accounts/1/").
Proof.
  apply (@accountuser_create_redirects_to_account (demo_site true None)
           (Demo.request (Demo.adduser_form true)) (Demo.route "1")
           (mkWorld Demo.db0 fresh_view []) Demo.acme).
  - vm_compute. reflexivity.
  - reflexivity.
Defined.

(** C3.  On a valid submission the form is saved exactly once, with the
    account that the route resolved to as its argument, and the database
    left by the view is the one that this save produced. *)
Theorem accountuser_create_saves_under_route_account `{Site} (request : Request)
    (kwargs : gmap string string) (w : World) (a : Account) :
  account_get_object kwargs (db w) = Ok a ->
  is_valid (request_form request) = true ->
  let w' := snd (BaseAccountUserCreate.post request kwargs w) in
  calls w' =
    calls w ++ [Call_AccountUserAddForm_save (request_form request) (ObjAccount a)]
  /\ db w' =
       fst (AccountUserAddForm_save (request_form request) (ObjAccount a) (db w)).
Proof.
  intros Ha Hvalid.
  rewrite (BaseAccountUserCreate_post_valid request kwargs w a Ha Hvalid).
  split; reflexivity.
Qed.

Lemma accountuser_create_saves_under_route_account_witness :
  let w' := snd (@BaseAccountUserCreate.post (demo_site true None)
                   (Demo.request (Demo.adduser_form true)) (Demo.route "1")
                   (mkWorld Demo.db0 fresh_view [])) in
  calls w' = [Call_AccountUserAddForm_save (Demo.adduser_form true) (ObjAccount Demo.acme)]
  /\ accountusers (db w') !! 2 = Some (mkAccountUser 2 (account_pk Demo.acme) 2).
Proof.
  destruct (@accountuser_create_saves_under_route_account (demo_site true None)
              (Demo.request (Demo.adduser_form true)) (Demo.route "1")
              (mkWorld Demo.db0 fresh_view []) Demo.acme) as [Hcalls Hdb].
  - vm_compute. reflexivity.
  - reflexivity.
  - cbv zeta. split.
    + exact Hcalls.
    + rewrite Hdb. vm_compute. reflexivity.
Defined.

(** C10.  On a submission whose form is not valid, no form is saved: the
    database and the log of calls are what they were, whatever the route
    resolves to; and when it resolves to an account the answer is the
    form rendered again. *)
Theorem accountuser_create_invalid_saves_nothing `{Site} (request : Request)
    (kwargs : gmap string string) (w : World) :
  is_valid (request_form request) = false ->
  let out := BaseAccountUserCreate.post request kwargs w in
  db (snd out) = db w
  /\ calls (snd out) = calls w
  /\ forall a : Account,
       account_get_object kwargs (db w) = Ok a ->
       fst out =
         Ok (TemplateResponse (Some BaseAccountUserCreate.template_name)
               (super_get_context_data {[ "form" := CForm (request_form request) ]})).
Proof.
  intros Hinvalid. unfold_views. unfold_monad. cbn.
  destruct (account_get_object kwargs (db w)) as [a | e] eqn:Ha; cbn.
  - rewrite Hinvalid. cbn.
    split; [reflexivity | split; [reflexivity | intros a' _; reflexivity]].
  - split; [reflexivity | split; [reflexivity | intros a' Ha'; discriminate Ha']].
Qed.

Lemma accountuser_create_invalid_saves_nothing_witness :
  let out := @BaseAccountUserCreate.post (demo_site true None)
               (Demo.request (Demo.adduser_form false)) (Demo.route "1")
               (mkWorld Demo.db0 fresh_view []) in
  db (snd out) = Demo.db0 /\ calls (snd out) = [] /\
  fst out =
    Ok (TemplateResponse (Some "accounts/accountuser_form.html")
          {[ "form" := CForm (Demo.adduser_form false) ]}).
Proof.
  destruct (@accountuser_create_invalid_saves_nothing (demo_site true None)
              (Demo.request (Demo.adduser_form false)) (Demo.route "1")
              (mkWorld Demo.db0 fresh_view []) eq_refl) as (Hdb & Hcalls & Hresp).
  cbv zeta. split; [exact Hdb | split; [exact Hcalls |]].
  apply (Hresp Demo.acme). vm_compute. reflexivity.
Defined.

(** ** The profile of the logged-in user *)

Section profile.
Context `{Site}.
Variables (request : Request) (w : World).
Variables n f l e p r : pyval.

Hypothesis Hvalid : is_valid (request_form request) = true.
Hypothesis Hn : cleaned_data (request_form request) !! "username" = Some n.
Hypothesis Hf : cleaned_data (request_form request) !! "first_name" = Some f.
Hypothesis Hl : cleaned_data (request_form request) !! "last_name" = Some l.
Hypothesis He : cleaned_data (request_form request) !! "email" = Some e.
Hypothesis Hp : cleaned_data (request_form request) !! "password1" = Some p.
Hypothesis Hr : cleaned_data (request_form request) !! "referrer" = Some r.

(** The whole outcome of a valid submission of the profile form. *)
Lemma UserProfileView_post_valid :
  UserProfileView.post request w =
    (Ok (HttpResponseRedirect (py_or r UserProfileView.success_url)),
     mkWorld
       (mkDB (accounts (db w)) (accountusers (db w))
             (<[ pk (request_user request) :=
                   profile_assigned n f l e p (request_user request) ]> (users (db w))))
       (mkView (self_object (self w)) (self_account (self w))
               (self_object_list (self w))
               (Some (profile_assigned n f l e p (request_user request)))
               (self_referrer (self w)))
       (calls w
          ++ (if truthy p then [Call_set_password (pk (request_user request)) p] else [])
          ++ [Call_User_save (profile_assigned n f l e p (request_user request))])).
Proof.
  unfold_views. unfold_monad. cbn.
  rewrite Hvalid, Hn. cbn. rewrite Hf. cbn. rewrite Hl. cbn.
  rewrite He. cbn. rewrite Hp. cbn.
  unfold profile_assigned.
  destruct (truthy p) eqn:Htruth; cbn.
  - rewrite Hr. cbn. now rewrite <- app_assoc.
  - rewrite Hr. reflexivity.
Qed.
End profile.

(** C4.  A valid submission of the profile form stores, under the
    primary key of the logged-in user, a record whose username, first
    name, last name and email are the submitted ones; with a non-empty
    password, [set_password] is called with it before [save] and the
    stored credential is its hash; with an empty one, [set_password] is
    not called and the stored credential is the one the user had. *)
Theorem profile_update_sets_fields_and_password `{Site} (request : Request)
    (w : World) (n f l e p r : pyval) :
  is_valid (request_form request) = true ->
  cleaned_data (request_form request) !! "username" = Some n ->
  cleaned_data (request_form request) !! "first_name" = Some f ->
  cleaned_data (request_form request) !! "last_name" = Some l ->
  cleaned_data (request_form request) !! "email" = Some e ->
  cleaned_data (request_form request) !! "password1" = Some p ->
  cleaned_data (request_form request) !! "referrer" = Some r ->
  let w' := snd (UserProfileView.post request w) in
  exists u' : User,
    users (db w') !! pk (request_user request) = Some u'
    /\ username u' = n /\ first_name u' = f /\ last_name u' = l /\ email u' = e
    /\ (forall s : string, p = PStr s -> s <> "" ->
        password u' = make_password p
        /\ calls w' =
             calls w ++ [Call_set_password (pk (request_user request)) p;
                         Call_User_save u'])
    /\ (p = PStr "" \/ p = PNone ->
        password u' = password (request_user request)
        /\ calls w' = calls w ++ [Call_User_save u']).
Proof.
  intros Hvalid Hn Hf Hl He Hp Hr.
  rewrite (UserProfileView_post_valid request w n f l e p r Hvalid Hn Hf Hl He Hp Hr).
  cbn. exists (profile_assigned n f l e p (request_user request)).
  split; [apply lookup_insert_eq |].
  unfold profile_assigned.
  repeat match goal with |- _ /\ _ => split end.
  1-4: destruct (truthy p); reflexivity.
  - intros s -> Hs. rewrite (truthy_nonempty s Hs). split; reflexivity.
  - intros Hcase. rewrite (truthy_empty p Hcase). split; reflexivity.
Qed.

Lemma profile_update_sets_fields_and_password_witness :
  let w' := snd (@UserProfileView.post (demo_site true None)
                   (Demo.request (Demo.profile_form (PStr "looking-glass") (PStr "/accounts/1/")))
                   (mkWorld Demo.db0 fresh_view [])) in
  exists u' : User,
    users (db w') !! 1 = Some u'
    /\ last_name u' = PStr "Pleasance"
    /\ email u' = PStr "alice@example.com"
    /\ password u' = "plain$looking-glass".
Proof.
  destruct (@profile_update_sets_fields_and_password (demo_site true None)
              (Demo.request (Demo.profile_form (PStr "looking-glass") (PStr "/accounts/1/")))
              (mkWorld Demo.db0 fresh_view [])
              (PStr "alice") (PStr "Alice") (PStr "Pleasance")
              (PStr "alice@example.com") (PStr "looking-glass") (PStr "/accounts/1/"))
    as (u' & Hrow & _ & _ & Hlast & Hemail & Hset & _);
    [vm_compute; reflexivity .. |].
  destruct (Hset "looking-glass" eq_refl) as [Hpw _]; [discriminate |].
  exists u'. split; [exact Hrow |]. split; [exact Hlast |]. split; [exact Hemail |].
  exact Hpw.
Defined.

(** C5.  A valid submission of the profile form is answered by a
    redirect to the referrer carried in the form when that value is a
    non-empty string, and to "/" when it is the empty string or
    [None]. *)
Theorem profile_update_redirects_to_referrer `{Site} (request : Request)
    (w : World) (n f l e p r : pyval) :
  is_valid (request_form request) = true ->
  cleaned_data (request_form request) !! "username" = Some n ->
  cleaned_data (request_form request) !! "first_name" = Some f ->
  cleaned_data (request_form request) !! "last_name" = Some l ->
  cleaned_data (request_form request) !! "email" = Some e ->
  cleaned_data (request_form request) !! "password1" = Some p ->
  cleaned_data (request_form request) !! "referrer" = Some r ->
  let resp := fst (UserProfileView.post request w) in
  (forall s : string, r = PStr s -> s <> "" -> resp = Ok (HttpResponseRedirect s))
  /\ (r = PStr "" \/ r = PNone -> resp = Ok (HttpResponseRedirect "/")).
Proof.
  intros Hvalid Hn Hf Hl He Hp Hr.
  rewrite (UserProfileView_post_valid request w n f l e p r Hvalid Hn Hf Hl He Hp Hr).
  cbn. split.
  - intros s -> Hs. now rewrite py_or_truthy.
  - intros [-> | ->]; reflexivity.
Qed.

Lemma profile_update_redirects_to_referrer_witness :
  fst (@UserProfileView.post (demo_site true None)
         (Demo.request (Demo.profile_form (PStr "") (PStr "/accounts/1/")))
         (mkWorld Demo.db0 fresh_view []))
    = Ok (HttpResponseRedirect "/accounts/1/")
  /\ fst (@UserProfileView.post (demo_site true None)
            (Demo.request (Demo.profile_form (PStr "") PNone))
            (mkWorld Demo.db0 fresh_view []))
       = Ok (HttpResponseRedirect "/").
Proof.
  split.
  - destruct (@profile_update_redirects_to_referrer (demo_site true None)
                (Demo.request (Demo.profile_form (PStr "") (PStr "/accounts/1/")))
                (mkWorld Demo.db0 fresh_view [])
                (PStr "alice") (PStr "Alice") (PStr "Pleasance")
                (PStr "alice@example.com") (PStr "") (PStr "/accounts/1/"))
      as [Hgo _]; [vm_compute; reflexivity .. |].
    apply (Hgo "/accounts/1/"); [reflexivity | discriminate].
  - destruct (@profile_update_redirects_to_referrer (demo_site true None)
                (Demo.request (Demo.profile_form (PStr "") PNone))
                (mkWorld Demo.db0 fresh_view [])
                (PStr "alice") (PStr "Alice") (PStr "Pleasance")
                (PStr "alice@example.com") (PStr "") PNone)
      as [_ Hdefault]; [vm_compute; reflexivity .. |].
    apply Hdefault. now right.
Defined.

(** C9.  A valid submission of the profile form leaves every other field
    of the stored user record as it was: primary key, staff, active and
    superuser flags, last login and date joined; the password too when
    the submitted one is empty.  The rows of the other users, the
    accounts and the account-users are not touched either. *)
Theorem profile_update_keeps_other_fields `{Site} (request : Request)
    (w : World) (n f l e p r : pyval) :
  is_valid (request_form request) = true ->
  cleaned_data (request_form request) !! "username" = Some n ->
  cleaned_data (request_form request) !! "first_name" = Some f ->
  cleaned_data (request_form request) !! "last_name" = Some l ->
  cleaned_data (request_form request) !! "email" = Some e ->
  cleaned_data (request_form request) !! "password1" = Some p ->
  cleaned_data (request_form request) !! "referrer" = Some r ->
  let user := request_user request in
  let w' := snd (UserProfileView.post request w) in
  (exists u' : User,
     users (db w') !! pk user = Some u'
     /\ pk u' = pk user
     /\ is_staff u' = is_staff user
     /\ is_active u' = is_active user
     /\ is_superuser u' = is_superuser user
     /\ last_login u' = last_login user
     /\ date_joined u' = date_joined user
     /\ (p = PStr "" \/ p = PNone -> password u' = password user))
  /\ (forall k : Z, k <> pk user -> users (db w') !! k = users (db w) !! k)
  /\ accounts (db w') = accounts (db w)
  /\ accountusers (db w') = accountusers (db w).
Proof.
  intros Hvalid Hn Hf Hl He Hp Hr.
  rewrite (UserProfileView_post_valid request w n f l e p r Hvalid Hn Hf Hl He Hp Hr).
  cbn. split; [| split; [| split; reflexivity]].
  - exists (profile_assigned n f l e p (request_user request)).
    split; [apply lookup_insert_eq |].
    unfold profile_assigned.
    repeat match goal with |- _ /\ _ => split end.
    1-6: destruct (truthy p); reflexivity.
    intros Hcase. now rewrite (truthy_empty p Hcase).
  - intros k Hk. now apply lookup_insert_ne.
Qed.

Lemma profile_update_keeps_other_fields_witness :
  let w' := snd (@UserProfileView.post (demo_site true None)
                   (Demo.request (Demo.profile_form (PStr "") (PStr "/accounts/1/")))
                   (mkWorld Demo.db0 fresh_view [])) in
  exists u' : User,
    users (db w') !! 1 = Some u'
    /\ is_staff u' = true /\ last_login u' = 20 /\ date_joined u' = 10
    /\ password u' = "plain$rabbit".
Proof.
  destruct (@profile_update_keeps_other_fields (demo_site true None)
              (Demo.request (Demo.profile_form (PStr "") (PStr "/accounts/1/")))
              (mkWorld Demo.db0 fresh_view [])
              (PStr "alice") (PStr "Alice") (PStr "Pleasance")
              (PStr "alice@example.com") (PStr "") (PStr "/accounts/1/"))
    as [(u' & Hrow & _ & Hstaff & _ & _ & Hlogin & Hjoined & Hpw) _];
    [vm_compute; reflexivity .. |].
  exists u'. split; [exact Hrow |]. split; [exact Hstaff |].
  split; [exact Hlogin |]. split; [exact Hjoined |]. apply Hpw. now left.
Defined.

(** ** Creating and deleting accounts, deleting account-users *)

(** C6.  A valid submission of the account creation form saves the form,
    which persists the new account, keeps the saved account in
    [self.object], and is answered by a redirect to the absolute URL of
    that saved account. *)
Theorem account_create_redirects_to_saved_account `{Site} (request : Request)
    (w : World) :
  is_valid (request_form request) = true ->
  let saved := AccountAddForm_save (request_form request) (db w) in
  let out := BaseAccountCreate.post request w in
  fst out = Ok (HttpResponseRedirect (account_get_absolute_url (snd saved)))
  /\ db (snd out) = fst saved
  /\ self_object (self (snd out)) = Some (ObjAccount (snd saved))
  /\ calls (snd out) = calls w ++ [Call_AccountAddForm_save (request_form request)].
Proof.
  intros Hvalid. unfold_views. unfold_monad.
  rewrite Hvalid. cbn.
  split; [reflexivity | split; [reflexivity | split; reflexivity]].
Qed.

Lemma account_create_redirects_to_saved_account_witness :
  let out := @BaseAccountCreate.post (demo_site true None)
               (Demo.request Demo.account_form) (mkWorld Demo.db0 fresh_view []) in
  fst out = Ok (HttpResponseRedirect "/accounts/3/")
  /\ accounts (db (snd out)) !! 3 = Some (mkAccount 3 "Initech").
Proof.
  destruct (@account_create_redirects_to_saved_account (demo_site true None)
              (Demo.request Demo.account_form) (mkWorld Demo.db0 fresh_view []))
    as (Hresp & Hdb & _ & _); [reflexivity |].
  cbv zeta. split.
  - rewrite Hresp. vm_compute. reflexivity.
  - rewrite Hdb. vm_compute. reflexivity.
Defined.

(** C7.  A deletion of an account that goes through (the route resolves
    to an account, the route name "account_list" reverses to a URL) is
    answered by a redirect to that URL, whichever account was deleted. *)
Theorem account_delete_redirects_to_account_list `{Site}
    (kwargs : gmap string string) (w : World) (a : Account) (url : string) :
  account_get_object kwargs (db w) = Ok a ->
  reverse "account_list" = Some url ->
  let out := BaseAccountDelete.delete kwargs w in
  fst out = Ok (HttpResponseRedirect url)
  /\ db (snd out) = account_delete a (db w)
  /\ calls (snd out) = calls w ++ [Call_delete (ObjAccount a)].
Proof.
  intros Ha Hurl. unfold_views. unfold_monad.
  rewrite Ha. cbn. rewrite Hurl.
  split; [reflexivity | split; reflexivity].
Qed.

Lemma account_delete_redirects_to_account_list_witness :
  fst (@BaseAccountDelete.delete (demo_site true None) (Demo.route "1")
         (mkWorld Demo.db0 fresh_view []))
    = Ok (HttpResponseRedirect "/accounts/")
  /\ fst (@BaseAccountDelete.delete (demo_site true None) (Demo.route "2")
            (mkWorld Demo.db0 fresh_view []))
       = Ok (HttpResponseRedirect "/accounts/").
Proof.
  split.
  - apply (@account_delete_redirects_to_account_list (demo_site true None)
             (Demo.route "1") (mkWorld Demo.db0 fresh_view []) Demo.acme "/accounts/");
      vm_compute; reflexivity.
  - apply (@account_delete_redirects_to_account_list (demo_site true None)
             (Demo.route "2") (mkWorld Demo.db0 fresh_view []) Demo.globex "/accounts/");
      vm_compute; reflexivity.
Defined.

(** C8.  A deletion of an account-user that goes through (the route
    resolves to an account-user, the route name "accountuser_list"
    reverses to a URL) is answered by a redirect to that URL, whichever
    account-user was deleted and whatever its account. *)
Theorem accountuser_delete_redirects_to_accountuser_list `{Site}
    (kwargs : gmap string string) (w : World) (au : AccountUser) (url : string) :
  accountuser_get_object kwargs (db w) = Ok au ->
  reverse "accountuser_list" = Some url ->
  let out := BaseAccountUserDelete.delete kwargs w in
  fst out = Ok (HttpResponseRedirect url)
  /\ db (snd out) = accountuser_delete au (db w)
  /\ calls (snd out) = calls w ++ [Call_delete (ObjAccountUser au)].
Proof.
  intros Hau Hurl. unfold_views. unfold_monad.
  rewrite Hau. cbn. rewrite Hurl.
  split; [reflexivity | split; reflexivity].
Qed.

Lemma accountuser_delete_redirects_to_accountuser_list_witness :
  fst (@BaseAccountUserDelete.delete (demo_site true None)
         (<[ "accountuser_pk" := "1" ]> (Demo.route "1"))
         (mkWorld Demo.db0 fresh_view []))
    = Ok (HttpResponseRedirect "/accounts/people/").
Proof.
  apply (@accountuser_delete_redirects_to_accountuser_list (demo_site true None)
           (<[ "accountuser_pk" := "1" ]> (Demo.route "1"))
           (mkWorld Demo.db0 fresh_view []) (mkAccountUser 1 1 1) "/accounts/people/");
    vm_compute; reflexivity.
Defined.

(** * Further properties of the views *)

Ltac unfold_more :=
  unfold BaseAccountDetail.get_context_data, BaseAccountUserCreate.get,
    UserProfileView.get, UserProfileView.get_context_data,
    UserProfileView.http_referer in *.

(** ** The list of the users of an account, continued *)

(** X1.  [BaseAccountUserList.get] only reads: whatever the route, the
    list and the site, and whether it answers or raises, the database
    and the log of calls are left as they were. *)
Theorem account_user_list_is_read_only `{Site} (kwargs : gmap string string)
    (w : World) :
  db (snd (BaseAccountUserList.get kwargs w)) = db w
  /\ calls (snd (BaseAccountUserList.get kwargs w)) = calls w.
Proof.
  unfold_views. unfold_monad.
  destruct (get_account kwargs (db w)) as [a | e]; cbn; [| split; reflexivity].
  destruct (negb allow_empty && (length (users_all a (db w)) =? 0)%nat);
    [destruct builtins_underscore |]; split; reflexivity.
Qed.

(** X2.  When the mixin does not resolve the account of the route,
    [BaseAccountUserList.get] raises what the mixin raised and leaves the
    world, view instance included, untouched. *)
Theorem account_user_list_unknown_account `{Site} (kwargs : gmap string string)
    (w : World) (e : exn) :
  get_account kwargs (db w) = Raise e ->
  BaseAccountUserList.get kwargs w = (Raise e, w).
Proof.
  intros He. unfold_views. unfold_monad. rewrite He. reflexivity.
Qed.

Lemma account_user_list_unknown_account_witness :
  @BaseAccountUserList.get (demo_site false None) (Demo.route "9")
     (mkWorld Demo.db0 fresh_view [])
  = (Raise (Http404 "No Account matches the given query."),
     mkWorld Demo.db0 fresh_view []).
Proof.
  apply (@account_user_list_unknown_account (demo_site false None)
           (Demo.route "9") (mkWorld Demo.db0 fresh_view [])).
  vm_compute. reflexivity.
Defined.

(** X3.  With a list that has elements, or with empty lists allowed,
    [BaseAccountUserList.get] answers with the list and the account in
    the context, and the view instance remembers both in [self.account]
    and [self.object_list]. *)
Theorem account_user_list_renders_and_remembers `{Site}
    (kwargs : gmap string string) (w : World) (a : Account) :
  get_account kwargs (db w) = Ok a ->
  users_all a (db w) <> [] \/ allow_empty = true ->
  let out := BaseAccountUserList.get kwargs w in
  fst out =
    Ok (TemplateResponse None
          (super_get_context_data
             (<[ "accountusers" := CAccountUsers (users_all a (db w)) ]>
                {[ "account" := CAccount a ]})))
  /\ self_account (self (snd out)) = Some a
  /\ self_object_list (self (snd out)) = Some (users_all a (db w)).
Proof.
  intros Ha Hor. unfold_views. unfold_monad.
  rewrite Ha. cbn.
  assert (negb allow_empty && (length (users_all a (db w)) =? 0)%nat = false)
    as ->.
  { destruct Hor as [Hne | ->]; [| reflexivity].
    destruct (users_all a (db w)); [contradiction | apply andb_false_r]. }
  split; [reflexivity | split; reflexivity].
Qed.

Lemma account_user_list_renders_and_remembers_witness :
  let out := @BaseAccountUserList.get (demo_site false None) (Demo.route "1")
               (mkWorld Demo.db0 fresh_view []) in
  fst out =
    Ok (TemplateResponse None
          (<[ "accountusers" := CAccountUsers [mkAccountUser 1 1 1] ]>
             {[ "account" := CAccount Demo.acme ]}))
  /\ self_account (self (snd out)) = Some Demo.acme
  /\ self_object_list (self (snd out)) = Some [mkAccountUser 1 1 1].
Proof.
  apply (@account_user_list_renders_and_remembers (demo_site false None)
           (Demo.route "1") (mkWorld Demo.db0 fresh_view []) Demo.acme).
  - vm_compute. reflexivity.
  - left. vm_compute. discriminate.
Defined.



(** ** Creating accounts and account-users, continued *)

(** X5.  A submission of the account creation form that is not valid
    saves nothing: the world is left as it was and the answer is the
    account form rendered again, with the submitted form in the
    context. *)
Theorem account_create_invalid_saves_nothing `{Site} (request : Request)
    (w : World) :
  is_valid (request_form request) = false ->
  BaseAccountCreate.post request w =
    (Ok (TemplateResponse (Some "accounts/account_form.html")
           (super_get_context_data {[ "form" := CForm (request_form request) ]})),
     w).
Proof.
  intros Hinvalid. unfold_views. unfold_monad. now rewrite Hinvalid.
Qed.

Lemma account_create_invalid_saves_nothing_witness :
  @BaseAccountCreate.post (demo_site true None)
     (Demo.request (Demo.adduser_form false)) (mkWorld Demo.db0 fresh_view [])
  = (Ok (TemplateResponse (Some "accounts/account_form.html")
           {[ "form" := CForm (Demo.adduser_form false) ]}),
     mkWorld Demo.db0 fresh_view []).
Proof.
  apply (@account_create_invalid_saves_nothing (demo_site true None)
           (Demo.request (Demo.adduser_form false))
           (mkWorld Demo.db0 fresh_view [])).
  reflexivity.
Defined.

(** X6.  When the route of the account-user creation view does not
    resolve to an account, both [get] and [post] raise what the mixin
    raised and leave the world untouched; [post] does so whether the
    submitted form is valid or not, so nothing is saved. *)
Theorem accountuser_create_unknown_account `{Site} (request : Request)
    (kwargs : gmap string string) (w : World) (e : exn) :
  account_get_object kwargs (db w) = Raise e ->
  BaseAccountUserCreate.post request kwargs w = (Raise e, w)
  /\ BaseAccountUserCreate.get request kwargs w = (Raise e, w).
Proof.
  intros He. unfold_more. unfold_views. unfold_monad. rewrite He.
  split; reflexivity.
Qed.

Lemma accountuser_create_unknown_account_witness :
  @BaseAccountUserCreate.post (demo_site true None)
     (Demo.request (Demo.adduser_form true)) (Demo.route "9")
     (mkWorld Demo.db0 fresh_view [])
  = (Raise (Http404 "No Account matches the given query."),
     mkWorld Demo.db0 fresh_view []).
Proof.
  apply (@accountuser_create_unknown_account (demo_site true None)
           (Demo.request (Demo.adduser_form true)) (Demo.route "9")
           (mkWorld Demo.db0 fresh_view [])).
  vm_compute. reflexivity.
Defined.

(** X7.  [BaseAccountUserCreate.get] on a route that resolves to an
    account renders the account-user form with the form and, under
    "account", the resolved account in the context; it keeps the account
    in [self.object] and changes neither the database nor the log of
    calls. *)
Theorem accountuser_create_get_renders_form `{Site} (request : Request)
    (kwargs : gmap string string) (w : World) (a : Account) :
  account_get_object kwargs (db w) = Ok a ->
  let out := BaseAccountUserCreate.get request kwargs w in
  fst out =
    Ok (TemplateResponse (Some "accounts/accountuser_form.html")
          (super_get_context_data
             (<[ "form" := CForm (request_form request) ]>
                {[ "account" := CObject (ObjAccount a) ]})))
  /\ self_object (self (snd out)) = Some (ObjAccount a)
  /\ db (snd out) = db w
  /\ calls (snd out) = calls w.
Proof.
  intros Ha. unfold_more. unfold_views. unfold_monad. rewrite Ha. cbn.
  split; [reflexivity | split; [reflexivity | split; reflexivity]].
Qed.

Lemma accountuser_create_get_renders_form_witness :
  let out := @BaseAccountUserCreate.get (demo_site true None)
               (Demo.request (Demo.adduser_form false)) (Demo.route "2")
               (mkWorld Demo.db0 fresh_view []) in
  fst out =
    Ok (TemplateResponse (Some "accounts/accountuser_form.html")
          (<[ "form" := CForm (Demo.adduser_form false) ]>
             {[ "account" := CObject (ObjAccount Demo.globex) ]}))
  /\ self_object (self (snd out)) = Some (ObjAccount Demo.globex)
  /\ db (snd out) = Demo.db0
  /\ calls (snd out) = [].
Proof.
  apply (@accountuser_create_get_renders_form (demo_site true None)
           (Demo.request (Demo.adduser_form false)) (Demo.route "2")
           (mkWorld Demo.db0 fresh_view []) Demo.globex).
  vm_compute. reflexivity.
Defined.

(** ** Deleting, continued *)

(** X8.  When the route of the account deletion view does not resolve to
    an account, [delete] raises what the mixin raised: nothing is
    deleted, no URL is reversed and the world is left as it was. *)
Theorem account_delete_unknown_deletes_nothing `{Site}
    (kwargs : gmap string string) (w : World) (e : exn) :
  account_get_object kwargs (db w) = Raise e ->
  BaseAccountDelete.delete kwargs w = (Raise e, w).
Proof.
  intros He. unfold_views. unfold_monad. rewrite He. reflexivity.
Qed.

Lemma account_delete_unknown_deletes_nothing_witness :
  @BaseAccountDelete.delete (demo_site true None) (Demo.route "9")
     (mkWorld Demo.db0 fresh_view [])
  = (Raise (Http404 "No Account matches the given query."),
     mkWorld Demo.db0 fresh_view []).
Proof.
  apply (@account_delete_unknown_deletes_nothing (demo_site true None)
           (Demo.route "9") (mkWorld Demo.db0 fresh_view [])).
  vm_compute. reflexivity.
Defined.

(** X9.  When the route of the account-user deletion view does not
    resolve to an account-user, [delete] raises what the mixin raised:
    nothing is deleted and the world is left as it was. *)
Theorem accountuser_delete_unknown_deletes_nothing `{Site}
    (kwargs : gmap string string) (w : World) (e : exn) :
  accountuser_get_object kwargs (db w) = Raise e ->
  BaseAccountUserDelete.delete kwargs w = (Raise e, w).
Proof.
  intros He. unfold_views. unfold_monad. rewrite He. reflexivity.
Qed.

Lemma accountuser_delete_unknown_deletes_nothing_witness :
  @BaseAccountUserDelete.delete (demo_site true None)
     (<[ "accountuser_pk" := "1" ]> (Demo.route "2"))
     (mkWorld Demo.db0 fresh_view [])
  = (Raise (Http404 "No AccountUser matches the given query."),
     mkWorld Demo.db0 fresh_view []).
Proof.
  apply (@accountuser_delete_unknown_deletes_nothing (demo_site true None)
           (<[ "accountuser_pk" := "1" ]> (Demo.route "2"))
           (mkWorld Demo.db0 fresh_view [])).
  vm_compute. reflexivity.
Defined.

(** ** The detail of an account *)

(** X10.  With an account in [self.object],
    [BaseAccountDetail.get_context_data] returns the inherited context
    with "account" set to that account and "accountusers" to its users,
    whatever the inherited context had under these two keys; every other
    key is as inherited, and the world is not changed. *)
Theorem account_detail_context `{Site} (kwargs : gmap string ctxval)
    (w : World) (a : Account) :
  self_object (self w) = Some (ObjAccount a) ->
  exists context : gmap string ctxval,
    BaseAccountDetail.get_context_data kwargs w = (Ok context, w)
    /\ context !! "account" = Some (CObject (ObjAccount a))
    /\ context !! "accountusers" = Some (CAccountUsers (users_all a (db w)))
    /\ forall key : string,
         key <> "account" -> key <> "accountusers" ->
         context !! key = super_get_context_data kwargs !! key.
Proof.
  intros Hobj. unfold_more. unfold_views. unfold_monad.
  destruct w as [d v c]. cbn in *. rewrite Hobj. cbn. rewrite Hobj. cbn.
  eexists. split; [reflexivity |].
  split; [apply lookup_insert_eq |].
  split; [rewrite lookup_insert_ne by discriminate; apply lookup_insert_eq |].
  intros key Hacc Haus.
  rewrite lookup_insert_ne by congruence.
  now rewrite lookup_insert_ne by congruence.
Qed.

Lemma account_detail_context_witness :
  exists context : gmap string ctxval,
    fst (@BaseAccountDetail.get_context_data (demo_site true None)
           {[ "account" := CBool false ]}
           (mkWorld Demo.db0 (view_of_account Demo.acme) [])) = Ok context
    /\ context !! "account" = Some (CObject (ObjAccount Demo.acme))
    /\ context !! "accountusers" = Some (CAccountUsers [mkAccountUser 1 1 1]).
Proof.
  destruct (@account_detail_context (demo_site true None)
              {[ "account" := CBool false ]}
              (mkWorld Demo.db0 (view_of_account Demo.acme) []) Demo.acme)
    as (context & Hrun & Hacc & Haus & _); [reflexivity |].
  exists context. split; [now rewrite Hrun |]. split; [exact Hacc |].
  rewrite Haus. vm_compute. reflexivity.
Defined.

(** ** The profile of the logged-in user, continued *)

(** Case analysis on the dictionary lookups of [form_valid], in the order
    in which it makes them. *)
Ltac case_lookups :=
  repeat match goal with
         | |- context [match ?m !! ?k with _ => _ end] =>
             let Hk := fresh "Hkey" in destruct (m !! k) eqn:Hk; cbn
         end.

(** X11.  The redirect of the profile view never has an empty target:
    it is the referrer when that is a non-empty string and "/" in every
    other case. *)
Theorem success_redirect_never_empty (referrer : pyval) :
  exists url : string,
    UserProfileView.success_redirect referrer = HttpResponseRedirect url
    /\ url <> ""
    /\ (url = "/" \/ referrer = PStr url).
Proof.
  unfold UserProfileView.success_redirect, UserProfileView.success_url.
  destruct referrer as [| s]; cbn.
  - exists "/". split; [reflexivity | split; [discriminate | now left]].
  - destruct (String.eqb_spec s ""); cbn.
    + exists "/". split; [reflexivity | split; [discriminate | now left]].
    + exists s. split; [reflexivity | split; [assumption | now right]].
Qed.

(** X12.  [UserProfileView.get] renders the form filled in with the
    username, first name, last name and email of the logged-in user and,
    as referrer, the [HTTP_REFERER] header of the request ([None] when
    there is none); no password is ever put in the form.  The context
    has "profile" set, and neither the database nor the log of calls
    changes. *)
Theorem profile_get_prefills `{Site} (request : Request) (w : World) :
  let out := UserProfileView.get request w in
  exists (form : Form) (context : gmap string ctxval),
    fst out = Ok (TemplateResponse (Some "accounts/accountuser_form.html") context)
    /\ context = <[ "profile" := CBool true ]>
                   (super_get_context_data {[ "form" := CForm form ]})
    /\ initial form !! "username" = Some (username (request_user request))
    /\ initial form !! "first_name" = Some (first_name (request_user request))
    /\ initial form !! "last_name" = Some (last_name (request_user request))
    /\ initial form !! "email" = Some (email (request_user request))
    /\ initial form !! "referrer" =
         Some (match META request !! "HTTP_REFERER" with
               | Some s => PStr s
               | None => PNone
               end)
    /\ initial form !! "password1" = None
    /\ db (snd out) = db w
    /\ calls (snd out) = calls w.
Proof.
  unfold_more. unfold_views. unfold_monad. cbn.
  eexists. eexists.
  repeat match goal with |- _ /\ _ => split end; try reflexivity.
Qed.

(** X13.  A submission of the profile form that is not valid changes
    nothing in the database and makes no call; the view instance holds
    the logged-in user, and the answer is the form rendered again in a
    context that has "profile" set and is otherwise the inherited
    one. *)
Theorem profile_invalid_saves_nothing `{Site} (request : Request) (w : World) :
  is_valid (request_form request) = false ->
  let out := UserProfileView.post request w in
  exists context : gmap string ctxval,
    fst out = Ok (TemplateResponse (Some "accounts/accountuser_form.html") context)
    /\ context !! "profile" = Some (CBool true)
    /\ (forall key : string, key <> "profile" ->
          context !! key =
            super_get_context_data {[ "form" := CForm (request_form request) ]} !! key)
    /\ db (snd out) = db w
    /\ calls (snd out) = calls w
    /\ self_user (self (snd out)) = Some (request_user request).
Proof.
  intros Hinvalid. unfold_more. unfold_views. unfold_monad. cbn.
  rewrite Hinvalid. cbn. eexists.
  split; [reflexivity |].
  split; [apply lookup_insert_eq |].
  split; [intros key Hkey; apply lookup_insert_ne; congruence |].
  split; [reflexivity | split; reflexivity].
Qed.

Lemma profile_invalid_saves_nothing_witness :
  let out := @UserProfileView.post (demo_site true None)
               (Demo.request (Demo.adduser_form false))
               (mkWorld Demo.db0 fresh_view []) in
  db (snd out) = Demo.db0 /\ calls (snd out) = [].
Proof.
  destruct (@profile_invalid_saves_nothing (demo_site true None)
              (Demo.request (Demo.adduser_form false))
              (mkWorld Demo.db0 fresh_view []) eq_refl)
    as (context & _ & _ & _ & Hdb & Hcalls & _).
  split; [exact Hdb | exact Hcalls].
Defined.

(** X14.  Sending the profile form back with the values the user already
    has and no password (the empty string or [None]) changes nothing for
    a user whose row is in the database: the database after the
    submission is the database before it. *)
Theorem profile_resubmit_unchanged `{Site} (request : Request) (w : World)
    (p r : pyval) :
  is_valid (request_form request) = true ->
  cleaned_data (request_form request) !! "username"
    = Some (username (request_user request)) ->
  cleaned_data (request_form request) !! "first_name"
    = Some (first_name (request_user request)) ->
  cleaned_data (request_form request) !! "last_name"
    = Some (last_name (request_user request)) ->
  cleaned_data (request_form request) !! "email"
    = Some (email (request_user request)) ->
  cleaned_data (request_form request) !! "password1" = Some p ->
  p = PStr "" \/ p = PNone ->
  cleaned_data (request_form request) !! "referrer" = Some r ->
  users (db w) !! pk (request_user request) = Some (request_user request) ->
  db (snd (UserProfileView.post request w)) = db w.
Proof.
  intros Hvalid Hn Hf Hl He Hp Hempty Hr Hrow.
  rewrite (UserProfileView_post_valid request w _ _ _ _ p r Hvalid Hn Hf Hl He Hp Hr).
  cbn. unfold profile_assigned. rewrite (truthy_empty p Hempty).
  assert (set_email (email (request_user request))
            (set_last_name (last_name (request_user request))
               (set_first_name (first_name (request_user request))
                  (set_username (username (request_user request))
                     (request_user request)))) = request_user request) as ->.
  { now destruct (request_user request). }
  rewrite (insert_id _ _ _ Hrow). now destruct (db w).
Qed.

Lemma profile_resubmit_unchanged_witness :
  db (snd (@UserProfileView.post (demo_site true None)
             (Demo.request demo_unchanged_profile_form)
             (mkWorld Demo.db0 fresh_view []))) = Demo.db0.
Proof.
  apply (@profile_resubmit_unchanged (demo_site true None)
           (Demo.request demo_unchanged_profile_form)
           (mkWorld Demo.db0 fresh_view []) (PStr "") (PStr "/accounts/"));
    try (vm_compute; reflexivity).
  now left.
Defined.

(** X15.  When the cleaned data of a valid profile form lacks one of
    username, first name, last name, email or password, [post] raises
    [KeyError] before [save] is reached: the database is not changed and
    no password is set. *)
Theorem profile_missing_field_saves_nothing `{Site} (request : Request)
    (w : World) (key : string) :
  is_valid (request_form request) = true ->
  key ∈ ["username"; "first_name"; "last_name"; "email"; "password1"] ->
  cleaned_data (request_form request) !! key = None ->
  let out := UserProfileView.post request w in
  (exists missing : string, fst out = Raise (KeyError missing))
  /\ db (snd out) = db w
  /\ calls (snd out) = calls w.
Proof.
  intros Hvalid Hin Hnone. unfold_views. unfold_monad. cbn.
  rewrite Hvalid.
  destruct (cleaned_data (request_form request) !! "username") eqn:Hn; cbn;
    [| split; [now eexists | split; reflexivity]].
  destruct (cleaned_data (request_form request) !! "first_name") eqn:Hf; cbn;
    [| split; [now eexists | split; reflexivity]].
  destruct (cleaned_data (request_form request) !! "last_name") eqn:Hl; cbn;
    [| split; [now eexists | split; reflexivity]].
  destruct (cleaned_data (request_form request) !! "email") eqn:He; cbn;
    [| split; [now eexists | split; reflexivity]].
  destruct (cleaned_data (request_form request) !! "password1") eqn:Hp; cbn;
    [| split; [now eexists | split; reflexivity]].
  exfalso.
  repeat (apply elem_of_cons in Hin as [-> | Hin]; [congruence |]).
  now apply elem_of_nil in Hin.
Qed.

Lemma profile_missing_field_saves_nothing_witness :
  let out := @UserProfileView.post (demo_site true None)
               (Demo.request demo_profile_form_without_email)
               (mkWorld Demo.db0 fresh_view []) in
  fst out = Raise (KeyError "email")
  /\ db (snd out) = Demo.db0
  /\ calls (snd out) = [].
Proof.
  destruct (@profile_missing_field_saves_nothing (demo_site true None)
              (Demo.request demo_profile_form_without_email)
              (mkWorld Demo.db0 fresh_view []) "email")
    as (_ & Hdb & Hcalls).
  - reflexivity.
  - apply (bool_decide_unpack _). vm_compute. exact I.
  - vm_compute. reflexivity.
  - split; [vm_compute; reflexivity | split; [exact Hdb | exact Hcalls]].
Defined.

(** X16.  When the cleaned data of a valid profile form has the five
    user fields but no referrer, [post] raises [KeyError] only after
    [save]: the submitted values are already stored under the primary
    key of the user when the exception leaves the view. *)
Theorem profile_missing_referrer_raises_after_save `{Site} (request : Request)
    (w : World) (n f l e p : pyval) :
  is_valid (request_form request) = true ->
  cleaned_data (request_form request) !! "username" = Some n ->
  cleaned_data (request_form request) !! "first_name" = Some f ->
  cleaned_data (request_form request) !! "last_name" = Some l ->
  cleaned_data (request_form request) !! "email" = Some e ->
  cleaned_data (request_form request) !! "password1" = Some p ->
  cleaned_data (request_form request) !! "referrer" = None ->
  let out := UserProfileView.post request w in
  fst out = Raise (KeyError "referrer")
  /\ exists u' : User,
       users (db (snd out)) !! pk (request_user request) = Some u'
       /\ username u' = n /\ first_name u' = f /\ last_name u' = l /\ email u' = e
       /\ In (Call_User_save u') (calls (snd out)).
Proof.
  intros Hvalid Hn Hf Hl He Hp Hr. unfold_views. unfold_monad. cbn.
  rewrite Hvalid, Hn. cbn. rewrite Hf. cbn. rewrite Hl. cbn.
  rewrite He. cbn. rewrite Hp. cbn.
  destruct (truthy p); cbn; rewrite Hr; cbn.
  - split; [reflexivity |]. eexists. split; [apply lookup_insert_eq |].
    repeat match goal with |- _ /\ _ => split end; try reflexivity.
    apply in_or_app. right. now left.
  - split; [reflexivity |]. eexists. split; [apply lookup_insert_eq |].
    repeat match goal with |- _ /\ _ => split end; try reflexivity.
    apply in_or_app. right. now left.
Qed.

Lemma profile_missing_referrer_raises_after_save_witness :
  let out := @UserProfileView.post (demo_site true None)
               (Demo.request (Demo.adduser_form true))
               (mkWorld Demo.db0 fresh_view []) in
  fst out = Raise (KeyError "referrer")
  /\ exists u' : User,
       users (db (snd out)) !! 1 = Some u' /\ username u' = PStr "bob".
Proof.
  destruct (@profile_missing_referrer_raises_after_save (demo_site true None)
              (Demo.request (Demo.adduser_form true))
              (mkWorld Demo.db0 fresh_view [])
              (PStr "bob") (PStr "Bob") (PStr "Builder")
              (PStr "bob@example.org") (PStr "hammer"))
    as (Hraise & u' & Hrow & Hname & _); [vm_compute; reflexivity .. |].
  split; [exact Hraise |]. exists u'. split; [exact Hrow | exact Hname].
Defined.

(** X17.  Whatever is submitted to the profile view, valid or not,
    complete or not, [set_password] is only ever called for the
    logged-in user and with a password that is a non-empty string: the
    credential is never reset from an empty field. *)
Theorem profile_never_sets_empty_password `{Site} (request : Request)
    (w : World) (user_pk : Z) (raw : pyval) :
  In (Call_set_password user_pk raw) (calls (snd (UserProfileView.post request w))) ->
  In (Call_set_password user_pk raw) (calls w)
  \/ (user_pk = pk (request_user request)
      /\ exists s : string, raw = PStr s /\ s <> "").
Proof.
  unfold_views. unfold_monad. cbn.
  destruct (is_valid (request_form request)); cbn; [| now left].
  case_lookups; try (now left).
  all: match goal with |- context [truthy ?x] => destruct (truthy x) eqn:Htruth end.
  all: cbn; rewrite ?in_app_iff; cbn; intros Hin.
  all: repeat match goal with
              | Hor : _ \/ _ |- _ => destruct Hor as [Hor | Hor]
              end;
         try contradiction; try discriminate; try (now left).
  all: inversion Hin; subst; right; split;
         [reflexivity | now apply truthy_spec].
Qed.

Lemma profile_never_sets_empty_password_witness :
  In (Call_set_password 1 (PStr "looking-glass")) [] \/
  (1 = pk Demo.alice /\ exists s : string, PStr "looking-glass" = PStr s /\ s <> "").
Proof.
  apply (@profile_never_sets_empty_password (demo_site true None)
           (Demo.request (Demo.profile_form (PStr "looking-glass") PNone))
           (mkWorld Demo.db0 fresh_view []) 1 (PStr "looking-glass")).
  vm_compute. left. reflexivity.
Defined.

(** X18.  Whatever is submitted to the profile view, and whether it
    answers or raises, the accounts, the account-users and the rows of
    all other users are left as they were: the only row the view can
    write is that of the logged-in user. *)
Theorem profile_post_touches_only_own_row `{Site} (request : Request) (w : World) :
  let w' := snd (UserProfileView.post request w) in
  accounts (db w') = accounts (db w)
  /\ accountusers (db w') = accountusers (db w)
  /\ forall k : Z, k <> pk (request_user request) ->
       users (db w') !! k = users (db w) !! k.
Proof.
  unfold_views. unfold_monad. cbn.
  destruct (is_valid (request_form request)); cbn;
    [| split; [reflexivity | split; [reflexivity | reflexivity]]].
  case_lookups;
    try (split; [reflexivity | split; [reflexivity | reflexivity]]).
  all: match goal with |- context [truthy ?x] => destruct (truthy x) end; cbn.
  all: split; [reflexivity | split; [reflexivity |]].
  all: intros k Hk; now apply lookup_insert_ne.
Qed.
